(** * Open Prism API (prism.py): a shallow embedding and its contract

    prism.py is a facade over an external asset-management core.  Every
    function resolves the core (from the host module [PrismInit] or from the
    module global [CORE]), checks a few preconditions, forwards one call and
    normalises the path separators of what comes back.

    The embedding keeps that shape.  A function of the module is a
    computation in the monad [M]: it reads and writes a [World] (the module
    global and what the host process offers), may raise an exception, and
    appends to a trace every attempt to resolve the core and every method
    called on it, so that "without contacting the core" and "delegates with
    media type ..." are statements about that trace. *)

From Stdlib Require Import Ascii ZArith.
From stdpp Require Import base strings gmap list.

Local Open Scope string_scope.

(** ** Python values *)

(** A reference that may be [None]. *)
Inductive pyref (A : Type) : Type :=
  | PyNone : pyref A
  | PyObj (a : A) : pyref A.
Arguments PyNone {A}.
Arguments PyObj {A} a.

(** [bool(x)], the test behind [if x] and [not x]. *)
Class Truthy (A : Type) := truthy : A → bool.

#[export] Instance str_truthy : Truthy string :=
  λ s, match s with EmptyString => false | String _ _ => true end.

#[export] Instance option_truthy `{Truthy A} : Truthy (option A) :=
  λ o, match o with None => false | Some a => truthy a end.

#[export] Instance pyref_truthy `{Truthy A} : Truthy (pyref A) :=
  λ r, match r with PyNone => false | PyObj a => truthy a end.

(** A module-level function object, as in [if not is_scene_in_prism:].
    Functions define neither [__bool__] nor [__len__]: they are always
    true, whatever calling them would return. *)
Definition function_object_truthy {A : Type} (f : A) : bool := true.

(** The two separators.  Strings are byte strings (UTF-8); the byte 92
    occurs in UTF-8 only as the backslash itself, so replacing bytes is
    replacing characters. *)
Definition backslash : ascii := "092"%char.
Definition slash : ascii := "/"%char.

(** [s.replace(old, new)] for one-character [old] and [new]. *)
Fixpoint replace (old new : ascii) (s : string) : string :=
  match s with
  | EmptyString => EmptyString
  | String c s' =>
      String (if Ascii.eqb c old then new else c) (replace old new s')
  end.

(** [s.startswith(p)]. *)
Fixpoint startswith (s p : string) {struct p} : bool :=
  match p with
  | EmptyString => true
  | String c p' =>
      match s with
      | EmptyString => false
      | String d s' => if Ascii.eqb d c then startswith s' p' else false
      end
  end.

(** Whether the character [c] occurs in [s]. *)
Fixpoint occurs (c : ascii) (s : string) : bool :=
  match s with
  | EmptyString => false
  | String d s' => if Ascii.eqb d c then true else occurs c s'
  end.

(** ** The external core *)

(** A descriptor produced by the core: a [dict].  The module reads only
    string entries of it (["path"], ["task"], ["department"]). *)
Abbreviation descriptor := (gmap string string).

(** A plugin object; the module only tests it for truth. *)
Record Plugin : Type := { plugin_bool : bool }.

#[export] Instance plugin_truthy : Truthy Plugin := plugin_bool.

(** The surface of the core object that prism.py touches.  Attributes are
    fields, methods are functions of their arguments; [core.a.b] is the
    field [a_b].  [core_bool] is [bool(core)]: true for an instance of a
    class with neither [__bool__] nor [__len__]. *)
Record Core : Type := {
  core_bool : bool;
  projectName : string;
  projectPath : string;
  prismRoot : string;
  plugins_getPlugin : string → pyref Plugin;
  getScenefileData : string → descriptor;
  products_generateProductPath :
    descriptor → string → string → option Z → option Z →
    option string → option string → bool → descriptor;
  mediaProducts_generateMediaProductPath :
    descriptor → string → string → option string → option string →
    bool → descriptor;
  mediaProducts_generatePlayblastPath :
    descriptor → string → string → option string → option string →
    bool → descriptor;
  paths_getExportProductBasePaths : descriptor;
  paths_getRenderProductBasePaths : descriptor;
  entities_getShotRange : descriptor → list Z
}.

#[export] Instance core_truthy : Truthy Core := core_bool.

(** ** Exceptions, events and the world *)

(** [OpenPrismAPIError] is the module's own exception class.  The other two
    are Python's: a failed [import] outside a [try], and an attribute looked
    up on [None]. *)
Inductive exn : Type :=
  | OpenPrismAPIError (msg : string)
  | ModuleNotFoundError (name : string)
  | AttributeError.

(** A method call on the core, with its arguments. *)
Module Call.
Inductive t : Type :=
  | getPlugin (name : string)
  | getScenefileData (scene_path : string)
  | generateProductPath (scene_data : descriptor)
      (identifier extension : string) (startframe endframe : option Z)
      (comment location : option string) (returnDetails : bool)
  | products_updateMasterVersion (path : string)
  | generateMediaProductPath (scene_data : descriptor)
      (identifier extension : string) (comment location : option string)
      (returnDetails : bool)
  | generatePlayblastPath (scene_data : descriptor)
      (identifier extension : string) (comment location : option string)
      (returnDetails : bool)
  | mediaProducts_updateMasterVersion (path : string)
      (mediaType : option string)
  | getExportProductBasePaths
  | getRenderProductBasePaths
  | parentWindow
  | getShotRange (scene_data : descriptor).

(** The three path-generation operations. *)
Definition is_path_generation (c : t) : bool :=
  match c with
  | generateProductPath _ _ _ _ _ _ _ _
  | generateMediaProductPath _ _ _ _ _ _
  | generatePlayblastPath _ _ _ _ _ _ => true
  | _ => false
  end.
End Call.

Inductive event : Type :=
  | import_PrismInit              (* get_core attempts host discovery *)
  | core_call (c : Call.t)        (* a method of the core is called *)
  | ProductBrowser_exec.          (* the browsing dialog is run *)

(** The host module [PrismInit], when it can be imported, exposes the core
    as its attribute [pcore]. *)
Record HostModule : Type := { pcore : pyref Core }.

(** What the functions of prism.py can observe.
    - [CORE]: the module global, [None] at start.
    - [PrismInit]: [None] when [import PrismInit] raises ModuleNotFoundError.
    - [maya_cmds]: [None] when [maya] cannot be imported, else the value of
      [cmds.file(sceneName=True, q=True)].
    - [hou]: likewise, the value of [hou.hipFile.path()].
    - [os_path_exists]: [os.path.exists].
    - [ProductBrowser]: [None] when the module cannot be imported, else the
      dialog's [productPath] once it has run ([None] or a string). *)
Record World : Type := {
  CORE : pyref Core;
  PrismInit : option HostModule;
  maya_cmds : option string;
  hou : option string;
  os_path_exists : string → bool;
  ProductBrowser : option (option string)
}.

Definition with_CORE (c : pyref Core) (w : World) : World :=
  {| CORE := c;
     PrismInit := PrismInit w;
     maya_cmds := maya_cmds w;
     hou := hou w;
     os_path_exists := os_path_exists w;
     ProductBrowser := ProductBrowser w |}.

(** ** The monad of the module's functions *)

Inductive result (A : Type) : Type :=
  | Ok (a : A)
  | Raise (e : exn).
Arguments Ok {A} a.
Arguments Raise {A} e.

(** One run: how it ended, the world it left, and the events it caused. *)
Record Run (A : Type) : Type := {
  outcome : result A;
  world : World;
  trace : list event
}.
Arguments outcome {A} r.
Arguments world {A} r.
Arguments trace {A} r.

Definition M (A : Type) : Type := World → Run A.

#[export] Instance M_ret : MRet M := λ A a w,
  {| outcome := Ok a; world := w; trace := [] |}.

#[export] Instance M_bind : MBind M := λ A B f m w,
  let r := m w in
  match outcome r with
  | Ok a =>
      let r' := f a (world r) in
      {| outcome := outcome r';
         world := world r';
         trace := trace r ++ trace r' |}
  | Raise e => {| outcome := Raise e; world := world r; trace := trace r |}
  end.

Definition raise {A : Type} (e : exn) : M A := λ w,
  {| outcome := Raise e; world := w; trace := [] |}.

Definition ask : M World := λ w,
  {| outcome := Ok w; world := w; trace := [] |}.

Definition modify (f : World → World) : M unit := λ w,
  {| outcome := Ok tt; world := f w; trace := [] |}.

Definition emit (e : event) : M unit := λ w,
  {| outcome := Ok tt; world := w; trace := [e] |}.

(** Calling a method of the core: the call is recorded, the core's answer
    is returned. *)
Definition call {A : Type} (c : Call.t) (answer : A) : M A :=
  emit (core_call c);; mret answer.

(** [core.attr]: looking an attribute up on [None] raises. *)
Definition obj {A : Type} (r : pyref A) : M A :=
  match r with
  | PyObj a => mret a
  | PyNone => raise AttributeError
  end.

(** ** prism.py *)

Definition get_core : M (pyref Core) :=
  emit import_PrismInit;;
  w ← ask;
  match PrismInit w with
  | None => mret (CORE w)
  | Some m => mret (pcore m)
  end.

Definition set_core (new_core : pyref Core) : M unit :=
  modify (with_CORE new_core).

Definition is_prism : M bool :=
  core ← get_core;
  if negb (truthy core) then mret false else mret true.

Definition get_maya_plugin : M (pyref Plugin) :=
  core ← get_core;
  match core with
  | PyNone => mret PyNone
  | PyObj c => call (Call.getPlugin "Maya") (plugins_getPlugin c "Maya")
  end.

Definition is_maya_plugin : M bool :=
  plugin ← get_maya_plugin;
  if negb (truthy plugin) then mret false else mret true.

Definition get_houdini_plugin : M (pyref Plugin) :=
  core ← get_core;
  match core with
  | PyNone => mret PyNone
  | PyObj c => call (Call.getPlugin "Houdini") (plugins_getPlugin c "Houdini")
  end.

Definition is_houdini_plugin : M bool :=
  plugin ← get_houdini_plugin;
  if negb (truthy plugin) then mret false else mret true.

Definition get_project_name : M string :=
  core ← get_core;
  match core with
  | PyNone => mret ""
  | PyObj c => mret (projectName c)
  end.

Definition get_project_path : M string :=
  core ← get_core;
  match core with
  | PyNone => mret ""
  | PyObj c => mret (replace backslash slash (projectPath c))
  end.

(** Returns [None], not the empty string, without a core. *)
Definition get_prism_folder : M (option string) :=
  core ← get_core;
  match core with
  | PyNone => mret None
  | PyObj c => mret (Some (replace backslash slash (prismRoot c)))
  end.

(** The Houdini provider is asked after the Maya one and overrides it. *)
Definition get_curr_scene_file_path : M string :=
  w ← ask;
  let scene_file : option string := None in
  let scene_file :=
    match maya_cmds w with Some s => Some s | None => scene_file end in
  let scene_file :=
    match hou w with Some s => Some s | None => scene_file end in
  match scene_file with
  | None => mret ""
  | Some s =>
      if negb (truthy s) then mret "" else mret (replace backslash slash s)
  end.

Definition is_scene_in_prism : M bool :=
  curr_scene ← get_curr_scene_file_path;
  prism_project ← get_project_path;
  if negb (truthy curr_scene) || negb (truthy prism_project) then mret false
  else mret (startswith curr_scene prism_project).

Definition get_scene_file_data (scene_path : string) : M descriptor :=
  core ← get_core;
  if negb (truthy core) then
    raise (OpenPrismAPIError "(get_scene_file_data) Prism core was not found.")
  else
    c ← obj core;
    call (Call.getScenefileData scene_path) (getScenefileData c scene_path).

(** [scene_path] defaults to [None].  The guard tests the function object
    [is_scene_in_prism]; the function is not called. *)
Definition get_task (scene_path : option string) : M (option string) :=
  if negb (function_object_truthy is_scene_in_prism) then
    raise (OpenPrismAPIError "(get_task) The current scene is not in Prism.")
  else
    scene_path ←
      match scene_path with
      | None => get_curr_scene_file_path
      | Some s => if negb (truthy s) then get_curr_scene_file_path else mret s
      end;
    data ← get_scene_file_data scene_path;
    mret (data !! "task").

Definition get_department (scene_path : option string) : M (option string) :=
  if negb (function_object_truthy is_scene_in_prism) then
    raise
      (OpenPrismAPIError "(get_department) The current scene is not in Prism.")
  else
    scene_path ←
      match scene_path with
      | None => get_curr_scene_file_path
      | Some s => if negb (truthy s) then get_curr_scene_file_path else mret s
      end;
    data ← get_scene_file_data scene_path;
    mret (data !! "department").

Definition get_product_export_data (identifier extension : string)
    (start_frame end_frame : option Z) (comment location : option string)
  : M descriptor :=
  core ← get_core;
  if negb (truthy core) then
    raise
      (OpenPrismAPIError "(get_product_export_data) Prism core was not found.")
  else
    in_prism ← is_scene_in_prism;
    if negb in_prism then
      raise
        (OpenPrismAPIError
           "(get_product_export_data) the current scene is not in Prism.")
    else
      scene_path ← get_curr_scene_file_path;
      c ← obj core;
      prism_scene_data ←
        call (Call.getScenefileData scene_path) (getScenefileData c scene_path);
      call
        (Call.generateProductPath prism_scene_data identifier extension
           start_frame end_frame comment location true)
        (products_generateProductPath c prism_scene_data identifier extension
           start_frame end_frame comment location true).

(** [d.get("path")], then the separator is normalised when the entry is a
    non-empty string; otherwise the function returns [None]. *)
Definition get_product_export_file_path (identifier extension : string)
    (location : option string) : M (option string) :=
  data ← get_product_export_data identifier extension None None None location;
  match data !! "path" with
  | None => mret None
  | Some path =>
      if truthy path then mret (Some (replace backslash slash path))
      else mret None
  end.

Definition set_product_master_version (path : string) : M unit :=
  w ← ask;
  if negb (os_path_exists w path) then
    raise
      (OpenPrismAPIError
         ("(set_product_master_version) the path do not exist: " +:+ path))
  else
    core ← get_core;
    if negb (truthy core) then
      raise
        (OpenPrismAPIError
           "(set_product_master_version) Prism core was not found.")
    else
      _ ← obj core;
      call (Call.products_updateMasterVersion path) tt.

Definition get_media_product_data (identifier extension : string)
    (comment location : option string) : M descriptor :=
  core ← get_core;
  if negb (truthy core) then
    raise
      (OpenPrismAPIError "(get_media_product_data) Prism core was not found.")
  else
    in_prism ← is_scene_in_prism;
    if negb in_prism then
      raise
        (OpenPrismAPIError
           "(get_media_product_data) the current scene is not in Prism.")
    else
      scene_path ← get_curr_scene_file_path;
      c ← obj core;
      prism_scene_data ←
        call (Call.getScenefileData scene_path) (getScenefileData c scene_path);
      call
        (Call.generateMediaProductPath prism_scene_data identifier extension
           comment location true)
        (mediaProducts_generateMediaProductPath c prism_scene_data identifier
           extension comment location true).

Definition get_media_export_file_path (identifier extension : string)
    (location : option string) : M (option string) :=
  data ← get_media_product_data identifier extension None location;
  match data !! "path" with
  | None => mret None
  | Some path =>
      if truthy path then mret (Some (replace backslash slash path))
      else mret None
  end.

Definition get_playblast_product_data (identifier extension : string)
    (comment location : option string) : M descriptor :=
  core ← get_core;
  if negb (truthy core) then
    raise
      (OpenPrismAPIError
         "(get_playblast_product_data) Prism core was not found.")
  else
    in_prism ← is_scene_in_prism;
    if negb in_prism then
      raise
        (OpenPrismAPIError
           "(get_playblast_product_data) the current scene is not in Prism.")
    else
      scene_path ← get_curr_scene_file_path;
      c ← obj core;
      prism_scene_data ←
        call (Call.getScenefileData scene_path) (getScenefileData c scene_path);
      call
        (Call.generatePlayblastPath prism_scene_data identifier extension
           comment location true)
        (mediaProducts_generatePlayblastPath c prism_scene_data identifier
           extension comment location true).

Definition get_playblast_export_file_path (identifier extension : string)
    (location : option string) : M (option string) :=
  data ← get_playblast_product_data identifier extension None location;
  match data !! "path" with
  | None => mret None
  | Some path =>
      if truthy path then mret (Some (replace backslash slash path))
      else mret None
  end.

Definition set_media_master_version (path : string)
    (is_playblast is_2d_render : bool) : M unit :=
  w ← ask;
  if negb (os_path_exists w path) then
    raise
      (OpenPrismAPIError
         ("(set_media_master_version) the path do not exist: " +:+ path))
  else
    core ← get_core;
    if negb (truthy core) then
      raise
        (OpenPrismAPIError
           "(set_media_master_version) Prism core was not found.")
    else
      let media_type :=
        if is_playblast then Some "playblasts"
        else if is_2d_render then Some "2drenders"
        else None in
      _ ← obj core;
      call (Call.mediaProducts_updateMasterVersion path media_type) tt.

Definition set_render_master_version (path : string) : M unit :=
  set_media_master_version path false false.

Definition set_playblast_master_version (path : string) : M unit :=
  set_media_master_version path true false.

Definition set_2d_render_master_version (path : string) : M unit :=
  set_media_master_version path false true.

Definition get_export_locations : M descriptor :=
  core ← get_core;
  if negb (truthy core) then
    raise (OpenPrismAPIError "(get_export_locations) Prism core was not found.")
  else
    c ← obj core;
    call Call.getExportProductBasePaths (paths_getExportProductBasePaths c).

Definition get_render_locations : M descriptor :=
  core ← get_core;
  if negb (truthy core) then
    raise (OpenPrismAPIError "(get_render_locations) Prism core was not found.")
  else
    c ← obj core;
    call Call.getRenderProductBasePaths (paths_getRenderProductBasePaths c).

(** The selected path goes into the list as the browser gave it. *)
Definition request_products : M (list string) :=
  core ← get_core;
  if negb (truthy core) then
    raise (OpenPrismAPIError "(request_products) Prism core was not found.")
  else
    w ← ask;
    match ProductBrowser w with
    | None => raise (ModuleNotFoundError "ProductBrowser")
    | Some productPath =>
        _ ← obj core;
        call Call.parentWindow tt;;
        emit ProductBrowser_exec;;
        let import_paths :=
          match productPath with
          | None => []
          | Some p => if truthy p then [p] else []
          end in
        mret import_paths
    end.

Definition get_shot_range (scene_path : option string) : M (list Z) :=
  core ← get_core;
  if negb (truthy core) then
    raise (OpenPrismAPIError "(get_shot_range) Prism core was not found.")
  else
    scene_path ←
      match scene_path with
      | None => get_curr_scene_file_path
      | Some s => if negb (truthy s) then get_curr_scene_file_path else mret s
      end;
    c ← obj core;
    data ← get_scene_file_data scene_path;
    call (Call.getShotRange data) (entities_getShotRange c data).

(** ** Vocabulary of the statements *)

(** The core that [get_core] resolves in a world: the host's when the host
    module is there, else the registered one. *)
Definition active_core (w : World) : pyref Core :=
  match PrismInit w with
  | Some m => pcore m
  | None => CORE w
  end.


(** Events that are one of the core's path-generation operations. *)
Definition is_path_generation_event (e : event) : bool :=
  match e with
  | core_call c => Call.is_path_generation c
  | _ => false
  end.

(** The run in which the media master-version update is the one thing asked
    of the core resolved in [w]: path [p], media type [media_type]. *)
Definition delegated_media_update (w : World) (p : string)
    (media_type : option string) : Run unit :=
  {| outcome := Ok tt;
     world := w;
     trace :=
       [import_PrismInit;
        core_call (Call.mediaProducts_updateMasterVersion p media_type)] |}.

(** The scene path the host reports: Houdini's when [hou] can be imported,
    else Maya's, else nothing. *)
Definition host_scene (w : World) : string :=
  match hou w with
  | Some s => s
  | None => default "" (maya_cmds w)
  end.

(** The run of a function that finds no core: it resolved the core, found
    it missing, and raised the error that names the function [name]. *)
Definition core_not_found {A : Type} (w : World) (name : string) : Run A :=
  {| outcome :=
       Raise (OpenPrismAPIError ("(" +:+ name +:+ ") Prism core was not found."));
     world := w;
     trace := [import_PrismInit] |}.

(** A computation that leaves the world as it found it, however it ends. *)
Definition preserves {A : Type} (m : M A) : Prop :=
  ∀ w : World, world (m w) = w.

(** A computation that never looks an attribute up on [None]. *)
Definition dereferences_safely {A : Type} (m : M A) : Prop :=
  ∀ w : World, outcome (m w) ≠ Raise AttributeError.

(** What [get("path")] followed by the separator replacement gives: the
    entry without backslash, or [None] for a missing or empty entry. *)
Definition normalized_path_entry (data : descriptor) : option string :=
  match data !! "path" with
  | None => None
  | Some path =>
      if truthy path then Some (replace backslash slash path) else None
  end.

(** The scene a lookup is about: the argument when it is a non-empty
    string, taken as given; else the current scene of the host, with its
    separators normalised. *)
Definition looked_up_scene (w : World) (scene_path : option string) : string :=
  match scene_path with
  | Some s => if truthy s then s else replace backslash slash (host_scene w)
  | None => replace backslash slash (host_scene w)
  end.

(** ** Sample worlds *)

(** A core of a project under /proj/alpha/ that knows one scene. *)
Definition alpha_core : Core :=
  {| core_bool := true;
     projectName := "alpha";
     projectPath := "/proj/alpha/";
     prismRoot := "C:\Prism2";
     plugins_getPlugin := λ _, PyNone;
     getScenefileData := λ _, {[ "task" := "anim" ]};
     products_generateProductPath := λ _ _ _ _ _ _ _ _, ∅;
     mediaProducts_generateMediaProductPath := λ _ _ _ _ _ _, ∅;
     mediaProducts_generatePlayblastPath := λ _ _ _ _ _ _, ∅;
     paths_getExportProductBasePaths := ∅;
     paths_getRenderProductBasePaths := ∅;
     entities_getShotRange := λ _, [] |}.

(** The module right after import in a process without host modules. *)
Definition bare_world : World :=
  {| CORE := PyNone;
     PrismInit := None;
     maya_cmds := None;
     hou := None;
     os_path_exists := λ _, false;
     ProductBrowser := None |}.

(** A Maya session with [alpha_core] registered by hand, the scene [scene]
    open, every path existing on disk and the browser returning
    [selection]. *)
Definition maya_world (scene : string) (selection : option string) : World :=
  {| CORE := PyObj alpha_core;
     PrismInit := None;
     maya_cmds := Some scene;
     hou := None;
     os_path_exists := λ _, true;
     ProductBrowser := Some selection |}.

(** A core on Windows: every path it holds or generates uses backslashes,
    and its Maya plugin is loaded. *)
Definition windows_core : Core :=
  {| core_bool := true;
     projectName := "alpha";
     projectPath := "C:\proj\alpha";
     prismRoot := "C:\Prism2";
     plugins_getPlugin :=
       λ name, if String.eqb name "Maya" then PyObj {| plugin_bool := true |}
               else PyNone;
     getScenefileData := λ _, {[ "department" := "layout" ]};
     products_generateProductPath :=
       λ _ _ _ _ _ _ _ _, {[ "path" := "C:\proj\alpha\export\chair.abc" ]};
     mediaProducts_generateMediaProductPath :=
       λ _ _ _ _ _ _, {[ "path" := "C:\proj\alpha\renders\beauty.exr" ]};
     mediaProducts_generatePlayblastPath :=
       λ _ _ _ _ _ _, {[ "version" := "v0001" ]};
     paths_getExportProductBasePaths := {[ "global" := "C:\proj\alpha" ]};
     paths_getRenderProductBasePaths := ∅;
     entities_getShotRange := λ _, [1001%Z; 1100%Z] |}.

(** A Houdini session whose host module [PrismInit] exposes
    [windows_core]; Maya cannot be imported, nothing is registered by hand,
    the scene is inside the project and the product browser is missing. *)
Definition houdini_world : World :=
  {| CORE := PyNone;
     PrismInit := Some {| pcore := PyObj windows_core |};
     maya_cmds := None;
     hou := Some "C:\proj\alpha\scenes\shot01.hip";
     os_path_exists := λ _, true;
     ProductBrowser := None |}.

(** * Properties *)

(** ** Strings *)

Section Strings.
Implicit Types (s p : string) (c : ascii).


Lemma truthy_str_true s : truthy s = true ↔ s ≠ "".
Proof. by destruct s. Qed.

Lemma replace_empty old new s : replace old new s = "" ↔ s = "".
Proof. by destruct s. Qed.

Lemma truthy_replace old new s : truthy (replace old new s) = truthy s.
Proof. by destruct s. Qed.

(** After [replace("\\", "/")] no backslash is left. *)
Lemma replace_no_backslash s :
  occurs backslash (replace backslash slash s) = false.
Proof.
  induction s as [|c s IH]; simpl; [done|].
  destruct (Ascii.eqb_spec c backslash) as [->|Hc].
  - by rewrite IH.
  - destruct (Ascii.eqb_spec c backslash); [done|]. by rewrite IH.
Qed.

(** A string without backslash is left as it is. *)
Lemma replace_id s :
  occurs backslash s = false → replace backslash slash s = s.
Proof.
  induction s as [|c s IH]; simpl; [done|].
  destruct (Ascii.eqb_spec c backslash); [done|].
  intros H. by rewrite IH.
Qed.

(** [startswith] decides the prefix relation. *)
Lemma startswith_spec s p :
  startswith s p = true ↔ ∃ rest, s = p +:+ rest.
Proof.
  revert s. induction p as [|c p IH]; intros s; simpl.
  - split; [by exists s|done].
  - destruct s as [|d s].
    + split; [done|]. by intros [rest ?].
    + destruct (Ascii.eqb_spec d c) as [->|Hdc].
      * rewrite IH. split; intros [rest H]; exists rest.
        -- change (String c s = String c (p +:+ rest)). by rewrite H.
        -- change (String c s = String c (p +:+ rest)) in H. congruence.
      * split; [done|]. intros [rest H].
        change (String d s = String c (p +:+ rest)) in H. congruence.
Qed.
End Strings.

(** ** Runs of the basic computations *)

(** Unfolds the monad's operations, so that a run computes. *)
Ltac run :=
  cbv [mbind M_bind mret M_ret raise ask modify emit call obj] in *;
  cbn [outcome world trace app] in *.

Section Runs.
Context {A B : Type}.
Implicit Types (m : M A) (f : A → M B) (w : World).

(** A bind whose first part returns continues in the world it left. *)
Lemma bind_ok m f w a w' t :
  m w = {| outcome := Ok a; world := w'; trace := t |} →
  (m ≫= f) w =
    {| outcome := outcome (f a w');
       world := world (f a w');
       trace := t ++ trace (f a w') |}.
Proof. intros H. unfold mbind, M_bind. by rewrite H. Qed.

(** A bind whose first part raises stops there. *)
Lemma bind_raise m f w e w' t :
  m w = {| outcome := Raise e; world := w'; trace := t |} →
  (m ≫= f) w = {| outcome := Raise e; world := w'; trace := t |}.
Proof. intros H. unfold mbind, M_bind. by rewrite H. Qed.
End Runs.

Lemma get_core_run w :
  get_core w =
    {| outcome := Ok (active_core w); world := w;
       trace := [import_PrismInit] |}.
Proof. unfold get_core, active_core. run. by destruct (PrismInit w). Qed.

Lemma set_core_run c w :
  set_core c w = {| outcome := Ok tt; world := with_CORE c w; trace := [] |}.
Proof. done. Qed.

(** ** Resolving and registering the core *)



(** C7 -- a registered core is the one resolved.  Whatever the object [c]
    and whatever the world, when the host module [PrismInit] cannot be
    imported, [set_core(c)] followed by [get_core()] returns [c] itself. *)
Theorem set_core_then_get_core (w : World) (c : pyref Core) :
  PrismInit w = None →
  outcome ((set_core c;; get_core) w) = Ok c.
Proof.
  intros Hhost.
  rewrite (bind_ok _ _ _ _ _ _ (set_core_run c w)), get_core_run.
  unfold active_core. cbn. by rewrite Hhost.
Qed.

Lemma set_core_then_get_core_witness :
  PrismInit bare_world = None ∧
  outcome ((set_core (PyObj alpha_core);; get_core) bare_world)
    = Ok (PyObj alpha_core).
Proof.
  split; [reflexivity|].
  apply (set_core_then_get_core bare_world (PyObj alpha_core)). reflexivity.
Defined.


(** At start, with nothing registered and no host, there is no core. *)
Example get_core_bare : outcome (get_core bare_world) = Ok PyNone.
Proof. reflexivity. Qed.

(** ** Simple accessors without a core *)

(** C6 -- without a core nothing fails.  In every world where the host
    module cannot be imported and no reference is registered,
    [get_project_name] and [get_project_path] return the empty string,
    [get_prism_folder] returns [None], and [is_prism], [is_maya_plugin] and
    [is_houdini_plugin] return [False]; none of them raises. *)
Theorem accessors_without_core (w : World) :
  PrismInit w = None →
  CORE w = PyNone →
  outcome (get_project_name w) = Ok "" ∧
  outcome (get_project_path w) = Ok "" ∧
  outcome (get_prism_folder w) = Ok None ∧
  outcome (is_prism w) = Ok false ∧
  outcome (is_maya_plugin w) = Ok false ∧
  outcome (is_houdini_plugin w) = Ok false.
Proof.
  intros Hhost Hcore.
  assert (Hget : get_core w =
    {| outcome := Ok PyNone; world := w; trace := [import_PrismInit] |}).
  { rewrite get_core_run. unfold active_core. by rewrite Hhost, Hcore. }
  unfold get_project_name, get_project_path, get_prism_folder, is_prism,
    is_maya_plugin, is_houdini_plugin, get_maya_plugin, get_houdini_plugin.
  run. rewrite Hget. by cbn.
Qed.

Lemma accessors_without_core_witness :
  outcome (get_project_name bare_world) = Ok "" ∧
  outcome (get_project_path bare_world) = Ok "" ∧
  outcome (get_prism_folder bare_world) = Ok None ∧
  outcome (is_prism bare_world) = Ok false ∧
  outcome (is_maya_plugin bare_world) = Ok false ∧
  outcome (is_houdini_plugin bare_world) = Ok false.
Proof. apply (accessors_without_core bare_world); reflexivity. Defined.

(** ** Master versions *)

(** C3 -- a path that does not exist stops both setters at once.  When
    [os.path.exists(p)] is false, [set_product_master_version(p)] and
    [set_media_master_version(p, ...)] raise [OpenPrismAPIError] with an
    empty trace: the core is neither resolved nor called, whatever core the
    world holds, and the world is left as it was. *)
Theorem master_version_missing_path (w : World) (p : string) :
  os_path_exists w p = false →
  set_product_master_version p w =
    {| outcome :=
         Raise (OpenPrismAPIError
           ("(set_product_master_version) the path do not exist: " +:+ p));
       world := w;
       trace := [] |}
  ∧ ∀ is_playblast is_2d_render : bool,
      set_media_master_version p is_playblast is_2d_render w =
        {| outcome :=
             Raise (OpenPrismAPIError
               ("(set_media_master_version) the path do not exist: " +:+ p));
           world := w;
           trace := [] |}.
Proof.
  intros Hmissing.
  unfold set_product_master_version, set_media_master_version.
  run. by rewrite Hmissing.
Qed.

Lemma master_version_missing_path_witness :
  set_product_master_version "/tmp/gone.abc" bare_world =
    {| outcome :=
         Raise (OpenPrismAPIError
           "(set_product_master_version) the path do not exist: /tmp/gone.abc");
       world := bare_world;
       trace := [] |}
  ∧ ∀ is_playblast is_2d_render : bool,
      set_media_master_version "/tmp/gone.abc" is_playblast is_2d_render
        bare_world =
        {| outcome :=
             Raise (OpenPrismAPIError
               "(set_media_master_version) the path do not exist: /tmp/gone.abc");
           world := bare_world;
           trace := [] |}.
Proof.
  apply (master_version_missing_path bare_world "/tmp/gone.abc"). reflexivity.
Defined.

(** What [set_media_master_version] does on an existing path with a core
    that passes the [if not core] test: one call, with the media type the
    flags select. *)
Lemma set_media_master_version_run w p is_playblast is_2d_render :
  os_path_exists w p = true →
  truthy (active_core w) = true →
  set_media_master_version p is_playblast is_2d_render w =
    delegated_media_update w p
      (if is_playblast then Some "playblasts"
       else if is_2d_render then Some "2drenders"
       else None).
Proof.
  intros Hexists Htrue.
  unfold set_media_master_version, delegated_media_update. run.
  rewrite Hexists. cbn [negb]. rewrite get_core_run. run.
  rewrite Htrue. cbn [negb].
  destruct (active_core w) as [|c]; [done|]. reflexivity.
Qed.

(** C4 -- the media type follows the flags.  For an existing path and a
    core that is present, [set_media_master_version(p)] with both flags
    false calls the core's media master-version update with media type
    [None]; with [is_playblast] true, with "playblasts"; with [is_2d_render]
    true and [is_playblast] false, with "2drenders".  The wrappers
    [set_render_master_version], [set_playblast_master_version] and
    [set_2d_render_master_version] are these three cases, in this order. *)
Theorem master_version_media_types (w : World) (p : string) :
  os_path_exists w p = true →
  truthy (active_core w) = true →
  set_media_master_version p false false w = delegated_media_update w p None ∧
  (∀ is_2d_render : bool,
     set_media_master_version p true is_2d_render w =
       delegated_media_update w p (Some "playblasts")) ∧
  set_media_master_version p false true w =
    delegated_media_update w p (Some "2drenders") ∧
  set_render_master_version p w = delegated_media_update w p None ∧
  set_playblast_master_version p w =
    delegated_media_update w p (Some "playblasts") ∧
  set_2d_render_master_version p w =
    delegated_media_update w p (Some "2drenders").
Proof.
  intros Hexists Htrue.
  unfold set_render_master_version, set_playblast_master_version,
    set_2d_render_master_version.
  repeat split; intros;
    by rewrite (set_media_master_version_run _ _ _ _ Hexists Htrue).
Qed.

Lemma master_version_media_types_witness :
  let w := maya_world "/proj/alpha/scenes/shot01.ma" None in
  let p := "/proj/alpha/renders/beauty.exr" in
  set_media_master_version p false false w = delegated_media_update w p None ∧
  (∀ is_2d_render : bool,
     set_media_master_version p true is_2d_render w =
       delegated_media_update w p (Some "playblasts")) ∧
  set_media_master_version p false true w =
    delegated_media_update w p (Some "2drenders") ∧
  set_render_master_version p w = delegated_media_update w p None ∧
  set_playblast_master_version p w =
    delegated_media_update w p (Some "playblasts") ∧
  set_2d_render_master_version p w =
    delegated_media_update w p (Some "2drenders").
Proof.
  apply (master_version_media_types
           (maya_world "/proj/alpha/scenes/shot01.ma" None)
           "/proj/alpha/renders/beauty.exr"); reflexivity.
Defined.

(** C10 -- the playblast flag wins.  For an existing path and a core that
    is present, [set_media_master_version(p, is_playblast=True,
    is_2d_render=True)] calls the core's media master-version update with
    media type "playblasts". *)
Theorem master_version_both_flags (w : World) (p : string) :
  os_path_exists w p = true →
  truthy (active_core w) = true →
  set_media_master_version p true true w =
    {| outcome := Ok tt;
       world := w;
       trace :=
         [import_PrismInit;
          core_call
            (Call.mediaProducts_updateMasterVersion p (Some "playblasts"))] |}.
Proof.
  intros Hexists Htrue.
  by rewrite (set_media_master_version_run _ _ _ _ Hexists Htrue).
Qed.

Lemma master_version_both_flags_witness :
  set_media_master_version "/proj/alpha/play/shot01.mov" true true
    (maya_world "/proj/alpha/scenes/shot01.ma" None) =
    {| outcome := Ok tt;
       world := maya_world "/proj/alpha/scenes/shot01.ma" None;
       trace :=
         [import_PrismInit;
          core_call
            (Call.mediaProducts_updateMasterVersion
               "/proj/alpha/play/shot01.mov" (Some "playblasts"))] |}.
Proof.
  apply (master_version_both_flags
           (maya_world "/proj/alpha/scenes/shot01.ma" None)
           "/proj/alpha/play/shot01.mov"); reflexivity.
Defined.

(** ** Scene membership *)

Lemma get_curr_scene_file_path_run w :
  get_curr_scene_file_path w =
    {| outcome := Ok (replace backslash slash (host_scene w));
       world := w;
       trace := [] |}.
Proof.
  unfold get_curr_scene_file_path, host_scene. run.
  destruct (hou w) as [[|c s]|]; [done..|].
  by destruct (maya_cmds w) as [[|c s]|].
Qed.

Lemma get_project_path_run w :
  get_project_path w =
    {| outcome :=
         Ok match active_core w with
            | PyNone => ""
            | PyObj c => replace backslash slash (projectPath c)
            end;
       world := w;
       trace := [import_PrismInit] |}.
Proof.
  unfold get_project_path. run. rewrite get_core_run. run.
  by destruct (active_core w).
Qed.

Lemma is_scene_in_prism_run w curr_scene prism_project :
  outcome (get_curr_scene_file_path w) = Ok curr_scene →
  outcome (get_project_path w) = Ok prism_project →
  is_scene_in_prism w =
    {| outcome :=
         Ok (if negb (truthy curr_scene) || negb (truthy prism_project)
             then false
             else startswith curr_scene prism_project);
       world := w;
       trace := [import_PrismInit] |}.
Proof.
  rewrite get_curr_scene_file_path_run, get_project_path_run.
  intros [= <-] [= <-].
  unfold is_scene_in_prism. run.
  rewrite get_curr_scene_file_path_run. run.
  rewrite get_project_path_run. run.
  by destruct (negb _ || negb _).
Qed.


(** The two cases the specification gives. *)
Example scene_inside_project :
  outcome (is_scene_in_prism (maya_world "/proj/alpha/scenes/shot01.ma" None))
    = Ok true.
Proof. reflexivity. Qed.

Example scene_outside_project :
  outcome (is_scene_in_prism (maya_world "/other/shot01.ma" None)) = Ok false.
Proof. reflexivity. Qed.

(** Separators are compared after normalisation. *)
Example scene_inside_project_backslashes :
  outcome (is_scene_in_prism (maya_world "\proj\alpha\scenes\shot01.ma" None))
    = Ok true.
Proof. reflexivity. Qed.

(** ** Exports from a scene outside the project *)

(** The three data functions share their first two checks.  With a core
    present and a scene outside the project, the run ends at the second
    one: the core was resolved twice (once here, once by
    [get_project_path]) and nothing was asked of it. *)
Lemma outside_project_run {A : Type} (w : World) (msg0 msg : string)
    (rest : pyref Core → M A) :
  truthy (active_core w) = true →
  outcome (is_scene_in_prism w) = Ok false →
  (core ← get_core;
   if negb (truthy core) then raise (OpenPrismAPIError msg0) else
     in_prism ← is_scene_in_prism;
     if negb in_prism then raise (OpenPrismAPIError msg) else rest core) w =
    {| outcome := Raise (OpenPrismAPIError msg);
       world := w;
       trace := [import_PrismInit; import_PrismInit] |}.
Proof.
  intros Htrue Hout.
  rewrite (bind_ok _ _ _ _ _ _ (get_core_run w)), Htrue. cbn [negb].
  pose proof (is_scene_in_prism_run w _ _
    (f_equal outcome (get_curr_scene_file_path_run w))
    (f_equal outcome (get_project_path_run w))) as Hrun.
  rewrite Hrun in Hout. cbn [outcome] in Hout. injection Hout as Hout.
  rewrite Hout in Hrun.
  by rewrite (bind_ok _ _ _ _ _ _ Hrun).
Qed.

(** C5 -- no export from a scene outside the project.  With a core present
    and [is_scene_in_prism] returning [False], [get_product_export_data],
    [get_product_export_file_path], [get_media_product_data] and
    [get_playblast_product_data] raise [OpenPrismAPIError], and no
    path-generation operation of the core occurs in their trace. *)
Theorem export_outside_project (w : World) :
  truthy (active_core w) = true →
  outcome (is_scene_in_prism w) = Ok false →
  ∀ (identifier extension : string) (start_frame end_frame : option Z)
    (comment location : option string),
    let product_data :=
      get_product_export_data identifier extension start_frame end_frame
        comment location w in
    let product_path :=
      get_product_export_file_path identifier extension location w in
    let media_data :=
      get_media_product_data identifier extension comment location w in
    let playblast_data :=
      get_playblast_product_data identifier extension comment location w in
    (outcome product_data =
       Raise (OpenPrismAPIError
         "(get_product_export_data) the current scene is not in Prism.") ∧
     existsb is_path_generation_event (trace product_data) = false) ∧
    (outcome product_path =
       Raise (OpenPrismAPIError
         "(get_product_export_data) the current scene is not in Prism.") ∧
     existsb is_path_generation_event (trace product_path) = false) ∧
    (outcome media_data =
       Raise (OpenPrismAPIError
         "(get_media_product_data) the current scene is not in Prism.") ∧
     existsb is_path_generation_event (trace media_data) = false) ∧
    (outcome playblast_data =
       Raise (OpenPrismAPIError
         "(get_playblast_product_data) the current scene is not in Prism.") ∧
     existsb is_path_generation_event (trace playblast_data) = false).
Proof.
  intros Htrue Hout identifier extension start_frame end_frame comment
    location. cbv zeta.
  assert (Hproduct : ∀ sf ef cm,
    get_product_export_data identifier extension sf ef cm location w =
      {| outcome :=
           Raise (OpenPrismAPIError
             "(get_product_export_data) the current scene is not in Prism.");
         world := w;
         trace := [import_PrismInit; import_PrismInit] |}).
  { intros. unfold get_product_export_data.
    by apply outside_project_run. }
  repeat split.
  - by rewrite Hproduct.
  - by rewrite Hproduct.
  - unfold get_product_export_file_path.
    by rewrite (bind_raise _ _ _ _ _ _ (Hproduct None None None)).
  - unfold get_product_export_file_path.
    by rewrite (bind_raise _ _ _ _ _ _ (Hproduct None None None)).
  - unfold get_media_product_data.
    by rewrite outside_project_run.
  - unfold get_media_product_data.
    by rewrite outside_project_run.
  - unfold get_playblast_product_data.
    by rewrite outside_project_run.
  - unfold get_playblast_product_data.
    by rewrite outside_project_run.
Qed.

Lemma export_outside_project_witness :
  let w := maya_world "/other/shot01.ma" None in
  truthy (active_core w) = true ∧
  outcome (is_scene_in_prism w) = Ok false ∧
  outcome (get_product_export_file_path "chair" ".abc" None w) =
    Raise (OpenPrismAPIError
      "(get_product_export_data) the current scene is not in Prism.") ∧
  existsb is_path_generation_event
    (trace (get_product_export_file_path "chair" ".abc" None w)) = false.
Proof.
  cbv zeta. split; [reflexivity|]. split; [reflexivity|].
  destruct (export_outside_project (maya_world "/other/shot01.ma" None)
              eq_refl eq_refl "chair" ".abc" None None None None)
    as (_ & Hpath & _).
  exact Hpath.
Defined.

(** With the scene inside the project the same call reaches the core's
    path generation. *)
Example export_inside_project :
  existsb is_path_generation_event
    (trace (get_product_export_file_path "chair" ".abc" None
              (maya_world "/proj/alpha/scenes/shot01.ma" None))) = true.
Proof. reflexivity. Qed.

(** ** The guard of [get_task] and [get_department] *)

(** [get_scene_file_data] either returns or reports the missing core. *)
Lemma get_scene_file_data_outcome w scene_path :
  outcome (get_scene_file_data scene_path w) =
    Raise (OpenPrismAPIError "(get_scene_file_data) Prism core was not found.")
  ∨ ∃ data, outcome (get_scene_file_data scene_path w) = Ok data.
Proof.
  unfold get_scene_file_data. run. rewrite get_core_run. run.
  destruct (active_core w) as [|c]; cbn; [by left|].
  destruct (truthy c); cbn; [right; eauto|by left].
Qed.

(** The scene path the two functions look up: the argument, or the current
    scene when the argument is [None] or empty.  Computing it never fails
    and changes nothing. *)
Lemma scene_path_or_current_run w (scene_path : option string) :
  ∃ s,
    match scene_path with
    | None => get_curr_scene_file_path
    | Some s => if negb (truthy s) then get_curr_scene_file_path else mret s
    end w = {| outcome := Ok s; world := w; trace := [] |}.
Proof.
  destruct scene_path as [s|];
    [destruct (truthy s); cbn [negb]|];
    rewrite ?get_curr_scene_file_path_run; eauto.
Qed.

(** C9 -- the guard of [get_task] and [get_department] never fires.  Its
    condition is the truth value of the function object
    [is_scene_in_prism], which is always true, not the result of calling
    it: both functions behave as the code that follows the guard, and for
    every argument and every world neither raises the "current scene is not
    in Prism" error. *)
Theorem task_guard_never_fires (w : World) (scene_path : option string) :
  function_object_truthy is_scene_in_prism = true ∧
  get_task scene_path =
    (scene_path ←
       match scene_path with
       | None => get_curr_scene_file_path
       | Some s => if negb (truthy s) then get_curr_scene_file_path else mret s
       end;
     data ← get_scene_file_data scene_path;
     mret (data !! "task")) ∧
  get_department scene_path =
    (scene_path ←
       match scene_path with
       | None => get_curr_scene_file_path
       | Some s => if negb (truthy s) then get_curr_scene_file_path else mret s
       end;
     data ← get_scene_file_data scene_path;
     mret (data !! "department")) ∧
  outcome (get_task scene_path w) ≠
    Raise (OpenPrismAPIError "(get_task) The current scene is not in Prism.") ∧
  outcome (get_department scene_path w) ≠
    Raise
      (OpenPrismAPIError
         "(get_department) The current scene is not in Prism.").
Proof.
  split; [reflexivity|]. split; [reflexivity|]. split; [reflexivity|].
  destruct (scene_path_or_current_run w scene_path) as [s Hs].
  unfold get_task, get_department, function_object_truthy. cbn [negb].
  rewrite !(bind_ok _ _ _ _ _ _ Hs). cbn [outcome].
  split.
  - destruct (get_scene_file_data_outcome w s) as [Hraise|[data Hok]];
      unfold mbind, M_bind; rewrite ?Hraise, ?Hok; discriminate.
  - destruct (get_scene_file_data_outcome w s) as [Hraise|[data Hok]];
      unfold mbind, M_bind; rewrite ?Hraise, ?Hok; discriminate.
Qed.

(** A scene outside the project: the membership check says no, and
    [get_task] answers all the same. *)
Example get_task_outside_project :
  let w := maya_world "/other/shot01.ma" None in
  outcome (is_scene_in_prism w) = Ok false ∧
  outcome (get_task None w) = Ok (Some "anim").
Proof. split; [reflexivity|]. vm_compute. reflexivity. Qed.

(** ** Separators in returned paths *)

(** The tail the three [..._file_path] functions share: whatever produced
    the descriptor, a returned path holds no backslash. *)
Lemma path_entry_normalized (m : M descriptor) (w : World) (p : string) :
  outcome
    ((data ← m;
      match data !! "path" with
      | None => mret None
      | Some path =>
          if truthy path then mret (Some (replace backslash slash path))
          else mret None
      end) w) = Ok (Some p) →
  occurs backslash p = false.
Proof.
  unfold mbind, M_bind.
  destruct (outcome (m w)) as [data|e]; cbn; [|done].
  destruct (data !! "path") as [path|]; [|done].
  destruct (truthy path); cbn; [|done].
  intros [= <-]. apply replace_no_backslash.
Qed.

(** X7 -- the six functions that return one path return it without
    backslash, in every world and for every argument: whenever
    [get_project_path], [get_prism_folder], [get_curr_scene_file_path] or
    one of the three [..._export_file_path] functions returns a path, no
    backslash occurs in it. *)
Lemma single_paths_normalized (w : World) (identifier extension : string)
    (location : option string) (p : string) :
  (outcome (get_project_path w) = Ok p ∨
   outcome (get_prism_folder w) = Ok (Some p) ∨
   outcome (get_curr_scene_file_path w) = Ok p ∨
   outcome (get_product_export_file_path identifier extension location w)
     = Ok (Some p) ∨
   outcome (get_media_export_file_path identifier extension location w)
     = Ok (Some p) ∨
   outcome (get_playblast_export_file_path identifier extension location w)
     = Ok (Some p)) →
  occurs backslash p = false.
Proof.
  intros [H|[H|[H|[H|[H|H]]]]].
  - rewrite get_project_path_run in H. injection H as <-.
    destruct (active_core w); [done|apply replace_no_backslash].
  - unfold get_prism_folder in H. run. rewrite get_core_run in H. run.
    destruct (active_core w); [done|].
    injection H as <-. apply replace_no_backslash.
  - rewrite get_curr_scene_file_path_run in H. injection H as <-.
    apply replace_no_backslash.
  - by eapply path_entry_normalized.
  - by eapply path_entry_normalized.
  - by eapply path_entry_normalized.
Qed.

(** C2 -- [request_products] hands back the browser's selection as it is.
    In a Maya session where the user picks a product under a Windows path,
    the list returned holds that path with its backslashes, while the
    same path through [replace] would hold none. *)
Theorem request_products_keeps_backslash :
  let w :=
    maya_world "/proj/alpha/scenes/shot01.ma"
      (Some "C:\proj\alpha\export\chair.abc") in
  outcome (request_products w) = Ok ["C:\proj\alpha\export\chair.abc"] ∧
  occurs backslash "C:\proj\alpha\export\chair.abc" = true ∧
  replace backslash slash "C:\proj\alpha\export\chair.abc"
    = "C:/proj/alpha/export/chair.abc".
Proof. cbv zeta. repeat split. Qed.

(** * Further properties of the module *)

(** ** The two ways past the core check *)

Section CoreCheck.
Context {A : Type} (w : World) (e : exn) (rest : pyref Core → M A).

(** Without a core the function stops at its first check. *)
Lemma no_core_run :
  truthy (active_core w) = false →
  (core ← get_core; if negb (truthy core) then raise e else rest core) w =
    {| outcome := Raise e; world := w; trace := [import_PrismInit] |}.
Proof.
  intros Hfalse.
  by rewrite (bind_ok _ _ _ _ _ _ (get_core_run w)), Hfalse.
Qed.

(** With a core the function goes on, one resolution later. *)
Lemma with_core_run :
  truthy (active_core w) = true →
  (core ← get_core; if negb (truthy core) then raise e else rest core) w =
    {| outcome := outcome (rest (active_core w) w);
       world := world (rest (active_core w) w);
       trace := import_PrismInit :: trace (rest (active_core w) w) |}.
Proof.
  intros Htrue.
  by rewrite (bind_ok _ _ _ _ _ _ (get_core_run w)), Htrue.
Qed.
End CoreCheck.

(** X1 -- a missing core is reported by name.  When no core is present,
    every function that needs one raises [OpenPrismAPIError] with the
    message "(<function>) Prism core was not found." right after resolving
    the core: nothing is called on it and the world is unchanged.  The
    [..._file_path] functions pass on the error of their data function, and
    the two setters get this far only for a path that exists. *)
Theorem missing_core_is_reported (w : World) :
  truthy (active_core w) = false →
  (∀ scene_path,
     get_scene_file_data scene_path w =
       core_not_found w "get_scene_file_data") ∧
  (∀ identifier extension start_frame end_frame comment location,
     get_product_export_data identifier extension start_frame end_frame
       comment location w = core_not_found w "get_product_export_data") ∧
  (∀ identifier extension location,
     get_product_export_file_path identifier extension location w =
       core_not_found w "get_product_export_data") ∧
  (∀ identifier extension comment location,
     get_media_product_data identifier extension comment location w =
       core_not_found w "get_media_product_data") ∧
  (∀ identifier extension location,
     get_media_export_file_path identifier extension location w =
       core_not_found w "get_media_product_data") ∧
  (∀ identifier extension comment location,
     get_playblast_product_data identifier extension comment location w =
       core_not_found w "get_playblast_product_data") ∧
  (∀ identifier extension location,
     get_playblast_export_file_path identifier extension location w =
       core_not_found w "get_playblast_product_data") ∧
  get_export_locations w = core_not_found w "get_export_locations" ∧
  get_render_locations w = core_not_found w "get_render_locations" ∧
  request_products w = core_not_found w "request_products" ∧
  (∀ scene_path,
     get_shot_range scene_path w = core_not_found w "get_shot_range") ∧
  (∀ path,
     os_path_exists w path = true →
     set_product_master_version path w =
       core_not_found w "set_product_master_version") ∧
  (∀ path is_playblast is_2d_render,
     os_path_exists w path = true →
     set_media_master_version path is_playblast is_2d_render w =
       core_not_found w "set_media_master_version").
Proof.
  intros Hfalse.
  assert (Hproduct : ∀ identifier extension start_frame end_frame comment
                       location,
    get_product_export_data identifier extension start_frame end_frame
      comment location w = core_not_found w "get_product_export_data").
  { intros. unfold get_product_export_data. by rewrite no_core_run. }
  assert (Hmedia : ∀ identifier extension comment location,
    get_media_product_data identifier extension comment location w =
      core_not_found w "get_media_product_data").
  { intros. unfold get_media_product_data. by rewrite no_core_run. }
  assert (Hplayblast : ∀ identifier extension comment location,
    get_playblast_product_data identifier extension comment location w =
      core_not_found w "get_playblast_product_data").
  { intros. unfold get_playblast_product_data. by rewrite no_core_run. }
  repeat split; intros.
  - unfold get_scene_file_data. by rewrite no_core_run.
  - apply Hproduct.
  - unfold get_product_export_file_path.
    by rewrite (bind_raise _ _ _ _ _ _ (Hproduct _ _ _ _ _ _)).
  - apply Hmedia.
  - unfold get_media_export_file_path.
    by rewrite (bind_raise _ _ _ _ _ _ (Hmedia _ _ _ _)).
  - apply Hplayblast.
  - unfold get_playblast_export_file_path.
    by rewrite (bind_raise _ _ _ _ _ _ (Hplayblast _ _ _ _)).
  - unfold get_export_locations. by rewrite no_core_run.
  - unfold get_render_locations. by rewrite no_core_run.
  - unfold request_products. by rewrite no_core_run.
  - unfold get_shot_range. by rewrite no_core_run.
  - unfold set_product_master_version. run.
    rewrite H. cbn [negb]. rewrite get_core_run. run. by rewrite Hfalse.
  - unfold set_media_master_version. run.
    rewrite H. cbn [negb]. rewrite get_core_run. run. by rewrite Hfalse.
Qed.

Lemma missing_core_is_reported_witness :
  get_export_locations bare_world =
    {| outcome :=
         Raise (OpenPrismAPIError
           "(get_export_locations) Prism core was not found.");
       world := bare_world;
       trace := [import_PrismInit] |}.
Proof.
  destruct (missing_core_is_reported bare_world eq_refl)
    as (_ & _ & _ & _ & _ & _ & _ & Hlocations & _).
  exact Hlocations.
Defined.

(** ** Scene data, tasks, departments and shot ranges *)

Lemma scene_path_or_current_is_looked_up w (scene_path : option string) :
  match scene_path with
  | None => get_curr_scene_file_path
  | Some s => if negb (truthy s) then get_curr_scene_file_path else mret s
  end w =
    {| outcome := Ok (looked_up_scene w scene_path); world := w; trace := [] |}.
Proof.
  unfold looked_up_scene.
  destruct scene_path as [s|];
    [destruct (truthy s); cbn [negb]|];
    by rewrite ?get_curr_scene_file_path_run.
Qed.

Lemma get_scene_file_data_run w c scene_path :
  active_core w = PyObj c →
  truthy c = true →
  get_scene_file_data scene_path w =
    {| outcome := Ok (getScenefileData c scene_path);
       world := w;
       trace := [import_PrismInit; core_call (Call.getScenefileData scene_path)] |}.
Proof.
  intros Hcore Htrue. unfold get_scene_file_data.
  rewrite with_core_run; rewrite Hcore; [done|exact Htrue].
Qed.

(** X2 -- what [get_task] and [get_department] look up.  With a core
    present, both ask the core once for the scene data of one path -- the
    argument as it was given when it is a non-empty string, the normalised
    current scene otherwise -- and return the "task", respectively
    "department", entry of the answer, [None] when the entry is missing. *)
Theorem task_and_department_lookup (w : World) (c : Core)
    (scene_path : option string) :
  active_core w = PyObj c →
  truthy c = true →
  let scene := looked_up_scene w scene_path in
  get_task scene_path w =
    {| outcome := Ok (getScenefileData c scene !! "task");
       world := w;
       trace := [import_PrismInit; core_call (Call.getScenefileData scene)] |}
  ∧ get_department scene_path w =
    {| outcome := Ok (getScenefileData c scene !! "department");
       world := w;
       trace := [import_PrismInit; core_call (Call.getScenefileData scene)] |}
  ∧ (∀ s, s ≠ "" → looked_up_scene w (Some s) = s)
  ∧ looked_up_scene w None = replace backslash slash (host_scene w)
  ∧ looked_up_scene w (Some "") = replace backslash slash (host_scene w).
Proof.
  intros Hcore Htrue. cbv zeta.
  pose proof (scene_path_or_current_is_looked_up w scene_path) as Hscene.
  pose proof (get_scene_file_data_run w c (looked_up_scene w scene_path)
                Hcore Htrue) as Hdata.
  unfold get_task, get_department, function_object_truthy. cbn [negb].
  rewrite !(bind_ok _ _ _ _ _ _ Hscene), !(bind_ok _ _ _ _ _ _ Hdata).
  repeat split.
  intros s Hs. unfold looked_up_scene.
  by apply truthy_str_true in Hs as ->.
Qed.

Lemma task_and_department_lookup_witness :
  get_task None (maya_world "C:\proj\alpha\shot01.ma" None) =
    {| outcome := Ok (Some "anim");
       world := maya_world "C:\proj\alpha\shot01.ma" None;
       trace :=
         [import_PrismInit;
          core_call (Call.getScenefileData "C:/proj/alpha/shot01.ma")] |}.
Proof.
  destruct (task_and_department_lookup
              (maya_world "C:\proj\alpha\shot01.ma" None) alpha_core None
              eq_refl eq_refl) as (Htask & _).
  exact Htask.
Defined.

(** X3 -- without a core, [get_task] and [get_department] fail with the
    error of [get_scene_file_data]: the message names that helper, not the
    function called, and nothing is asked of the core. *)
Theorem task_without_core (w : World) (scene_path : option string) :
  truthy (active_core w) = false →
  get_task scene_path w = core_not_found w "get_scene_file_data" ∧
  get_department scene_path w = core_not_found w "get_scene_file_data".
Proof.
  intros Hfalse.
  pose proof (scene_path_or_current_is_looked_up w scene_path) as Hscene.
  assert (Hdata : get_scene_file_data (looked_up_scene w scene_path) w =
                    core_not_found w "get_scene_file_data").
  { unfold get_scene_file_data. by rewrite no_core_run. }
  unfold get_task, get_department, function_object_truthy. cbn [negb].
  rewrite !(bind_ok _ _ _ _ _ _ Hscene). cbn [app].
  by rewrite !(bind_raise _ _ _ _ _ _ Hdata).
Qed.

Lemma task_without_core_witness :
  get_task (Some "/proj/alpha/scenes/shot01.ma") bare_world =
    {| outcome :=
         Raise (OpenPrismAPIError
           "(get_scene_file_data) Prism core was not found.");
       world := bare_world;
       trace := [import_PrismInit] |}.
Proof.
  destruct (task_without_core bare_world
              (Some "/proj/alpha/scenes/shot01.ma") eq_refl) as [Htask _].
  exact Htask.
Defined.

(** X4 -- [get_shot_range] with a core present.  It resolves the core
    twice (itself, then through [get_scene_file_data]), asks for the scene
    data of the same path [get_task] would use, hands that descriptor to
    the core's shot-range lookup and returns the answer as it is. *)
Theorem shot_range_lookup (w : World) (c : Core)
    (scene_path : option string) :
  active_core w = PyObj c →
  truthy c = true →
  let scene := looked_up_scene w scene_path in
  let data := getScenefileData c scene in
  get_shot_range scene_path w =
    {| outcome := Ok (entities_getShotRange c data);
       world := w;
       trace :=
         [import_PrismInit;
          import_PrismInit;
          core_call (Call.getScenefileData scene);
          core_call (Call.getShotRange data)] |}.
Proof.
  intros Hcore Htrue. cbv zeta.
  pose proof (scene_path_or_current_is_looked_up w scene_path) as Hscene.
  pose proof (get_scene_file_data_run w c (looked_up_scene w scene_path)
                Hcore Htrue) as Hdata.
  unfold get_shot_range.
  rewrite with_core_run; rewrite Hcore; [|exact Htrue].
  rewrite (bind_ok _ _ _ _ _ _ Hscene). cbn [outcome world trace app obj].
  assert (Hobj : @mret M _ _ c w = {| outcome := Ok c; world := w; trace := [] |})
    by done.
  rewrite (bind_ok _ _ _ _ _ _ Hobj), (bind_ok _ _ _ _ _ _ Hdata).
  reflexivity.
Qed.

Lemma shot_range_lookup_witness :
  outcome (get_shot_range None houdini_world) = Ok [1001%Z; 1100%Z].
Proof.
  exact (f_equal outcome
           (shot_range_lookup houdini_world windows_core None
              eq_refl eq_refl)).
Defined.

(** ** Exports from a scene inside the project *)

Lemma is_scene_in_prism_full_run w (in_prism : bool) :
  outcome (is_scene_in_prism w) = Ok in_prism →
  is_scene_in_prism w =
    {| outcome := Ok in_prism; world := w; trace := [import_PrismInit] |}.
Proof.
  pose proof (is_scene_in_prism_run w _ _
    (f_equal outcome (get_curr_scene_file_path_run w))
    (f_equal outcome (get_project_path_run w))) as Hrun.
  rewrite Hrun. cbn [outcome]. by intros [= ->].
Qed.

(** With a core present and the scene inside the project, a data function
    gets past both checks, two resolutions later. *)
Lemma inside_project_run {A : Type} (w : World) (msg0 msg : string)
    (rest : pyref Core → M A) :
  truthy (active_core w) = true →
  outcome (is_scene_in_prism w) = Ok true →
  (core ← get_core;
   if negb (truthy core) then raise (OpenPrismAPIError msg0) else
     in_prism ← is_scene_in_prism;
     if negb in_prism then raise (OpenPrismAPIError msg) else rest core) w =
    {| outcome := outcome (rest (active_core w) w);
       world := world (rest (active_core w) w);
       trace :=
         import_PrismInit :: import_PrismInit
           :: trace (rest (active_core w) w) |}.
Proof.
  intros Htrue Hin.
  rewrite with_core_run by done.
  by rewrite (bind_ok _ _ _ _ _ _ (is_scene_in_prism_full_run w true Hin)).
Qed.

(** X5 -- a product export from a scene inside the project.  With a core
    present and the current scene inside the project,
    [get_product_export_data] asks the core for the scene data of the
    normalised current scene, then for a product path with the caller's
    arguments and [returnDetails=True], and returns the descriptor as the
    core gave it.  [get_product_export_file_path] does the same with no
    frame range and no comment, and returns the descriptor's "path" entry
    without backslash, or [None] when the entry is missing or empty. *)
Theorem product_export_inside_project (w : World) (c : Core)
    (identifier extension : string) (start_frame end_frame : option Z)
    (comment location : option string) :
  active_core w = PyObj c →
  truthy c = true →
  outcome (is_scene_in_prism w) = Ok true →
  let scene := replace backslash slash (host_scene w) in
  let scene_data := getScenefileData c scene in
  get_product_export_data identifier extension start_frame end_frame comment
    location w =
    {| outcome :=
         Ok (products_generateProductPath c scene_data identifier extension
               start_frame end_frame comment location true);
       world := w;
       trace :=
         [import_PrismInit;
          import_PrismInit;
          core_call (Call.getScenefileData scene);
          core_call
            (Call.generateProductPath scene_data identifier extension
               start_frame end_frame comment location true)] |}
  ∧ get_product_export_file_path identifier extension location w =
    {| outcome :=
         Ok (normalized_path_entry
               (products_generateProductPath c scene_data identifier extension
                  None None None location true));
       world := w;
       trace :=
         [import_PrismInit;
          import_PrismInit;
          core_call (Call.getScenefileData scene);
          core_call
            (Call.generateProductPath scene_data identifier extension
               None None None location true)] |}.
Proof.
  intros Hcore Htrue Hin. cbv zeta.
  assert (Htruthy : truthy (active_core w) = true) by by rewrite Hcore.
  assert (Hdata : ∀ sf ef cm,
    get_product_export_data identifier extension sf ef cm location w =
      {| outcome :=
           Ok (products_generateProductPath c
                 (getScenefileData c (replace backslash slash (host_scene w)))
                 identifier extension sf ef cm location true);
         world := w;
         trace :=
           [import_PrismInit;
            import_PrismInit;
            core_call
              (Call.getScenefileData (replace backslash slash (host_scene w)));
            core_call
              (Call.generateProductPath
                 (getScenefileData c (replace backslash slash (host_scene w)))
                 identifier extension sf ef cm location true)] |}).
  { intros. unfold get_product_export_data.
    rewrite inside_project_run by done. rewrite Hcore.
    rewrite (bind_ok _ _ _ _ _ _ (get_curr_scene_file_path_run w)).
    reflexivity. }
  split; [apply Hdata|].
  unfold get_product_export_file_path, normalized_path_entry.
  rewrite (bind_ok _ _ _ _ _ _ (Hdata None None None)).
  destruct (_ !! "path") as [path|]; [|done]. by destruct (truthy path).
Qed.

Lemma product_export_inside_project_witness :
  get_product_export_file_path "chair" ".abc" None houdini_world =
    {| outcome := Ok (Some "C:/proj/alpha/export/chair.abc");
       world := houdini_world;
       trace :=
         [import_PrismInit;
          import_PrismInit;
          core_call (Call.getScenefileData "C:/proj/alpha/scenes/shot01.hip");
          core_call
            (Call.generateProductPath {[ "department" := "layout" ]}
               "chair" ".abc" None None None None true)] |}.
Proof.
  destruct (product_export_inside_project houdini_world windows_core
              "chair" ".abc" None None None None eq_refl eq_refl eq_refl)
    as [_ Hpath].
  exact Hpath.
Defined.

(** X6 -- media and playblast exports from a scene inside the project.
    With a core present and the current scene inside the project,
    [get_media_product_data] and [get_playblast_product_data] ask the core
    for the scene data of the normalised current scene and then for a media
    product path, respectively a playblast path, with the caller's
    arguments and [returnDetails=True]; they return the descriptor as the
    core gave it.  The two [..._file_path] functions pass no comment and
    return the "path" entry without backslash, or [None] when it is missing
    or empty. *)
Theorem media_export_inside_project (w : World) (c : Core)
    (identifier extension : string) (comment location : option string) :
  active_core w = PyObj c →
  truthy c = true →
  outcome (is_scene_in_prism w) = Ok true →
  let scene := replace backslash slash (host_scene w) in
  let scene_data := getScenefileData c scene in
  let asked (generation : Call.t) : list event :=
    [import_PrismInit;
     import_PrismInit;
     core_call (Call.getScenefileData scene);
     core_call generation] in
  get_media_product_data identifier extension comment location w =
    {| outcome :=
         Ok (mediaProducts_generateMediaProductPath c scene_data identifier
               extension comment location true);
       world := w;
       trace :=
         asked (Call.generateMediaProductPath scene_data identifier extension
                  comment location true) |}
  ∧ get_media_export_file_path identifier extension location w =
    {| outcome :=
         Ok (normalized_path_entry
               (mediaProducts_generateMediaProductPath c scene_data identifier
                  extension None location true));
       world := w;
       trace :=
         asked (Call.generateMediaProductPath scene_data identifier extension
                  None location true) |}
  ∧ get_playblast_product_data identifier extension comment location w =
    {| outcome :=
         Ok (mediaProducts_generatePlayblastPath c scene_data identifier
               extension comment location true);
       world := w;
       trace :=
         asked (Call.generatePlayblastPath scene_data identifier extension
                  comment location true) |}
  ∧ get_playblast_export_file_path identifier extension location w =
    {| outcome :=
         Ok (normalized_path_entry
               (mediaProducts_generatePlayblastPath c scene_data identifier
                  extension None location true));
       world := w;
       trace :=
         asked (Call.generatePlayblastPath scene_data identifier extension
                  None location true) |}.
Proof.
  intros Hcore Htrue Hin. cbv zeta.
  assert (Htruthy : truthy (active_core w) = true) by by rewrite Hcore.
  assert (Hmedia : ∀ cm,
    get_media_product_data identifier extension cm location w =
      {| outcome :=
           Ok (mediaProducts_generateMediaProductPath c
                 (getScenefileData c (replace backslash slash (host_scene w)))
                 identifier extension cm location true);
         world := w;
         trace :=
           [import_PrismInit;
            import_PrismInit;
            core_call
              (Call.getScenefileData (replace backslash slash (host_scene w)));
            core_call
              (Call.generateMediaProductPath
                 (getScenefileData c (replace backslash slash (host_scene w)))
                 identifier extension cm location true)] |}).
  { intros. unfold get_media_product_data.
    rewrite inside_project_run by done. rewrite Hcore.
    rewrite (bind_ok _ _ _ _ _ _ (get_curr_scene_file_path_run w)).
    reflexivity. }
  assert (Hplayblast : ∀ cm,
    get_playblast_product_data identifier extension cm location w =
      {| outcome :=
           Ok (mediaProducts_generatePlayblastPath c
                 (getScenefileData c (replace backslash slash (host_scene w)))
                 identifier extension cm location true);
         world := w;
         trace :=
           [import_PrismInit;
            import_PrismInit;
            core_call
              (Call.getScenefileData (replace backslash slash (host_scene w)));
            core_call
              (Call.generatePlayblastPath
                 (getScenefileData c (replace backslash slash (host_scene w)))
                 identifier extension cm location true)] |}).
  { intros. unfold get_playblast_product_data.
    rewrite inside_project_run by done. rewrite Hcore.
    rewrite (bind_ok _ _ _ _ _ _ (get_curr_scene_file_path_run w)).
    reflexivity. }
  split; [apply Hmedia|]. split; [|split; [apply Hplayblast|]].
  - unfold get_media_export_file_path, normalized_path_entry.
    rewrite (bind_ok _ _ _ _ _ _ (Hmedia None)).
    destruct (_ !! "path") as [path|]; [|done]. by destruct (truthy path).
  - unfold get_playblast_export_file_path, normalized_path_entry.
    rewrite (bind_ok _ _ _ _ _ _ (Hplayblast None)).
    destruct (_ !! "path") as [path|]; [|done]. by destruct (truthy path).
Qed.

(** The sample core's playblast descriptor has no "path" entry: the
    function returns [None]. *)
Lemma media_export_inside_project_witness :
  outcome (get_media_export_file_path "beauty" ".exr" None houdini_world)
    = Ok (Some "C:/proj/alpha/renders/beauty.exr") ∧
  outcome (get_playblast_export_file_path "shot01" ".mov" None houdini_world)
    = Ok None.
Proof.
  destruct (media_export_inside_project houdini_world windows_core
              "beauty" ".exr" None None eq_refl eq_refl eq_refl)
    as (_ & Hmedia & _).
  destruct (media_export_inside_project houdini_world windows_core
              "shot01" ".mov" None None eq_refl eq_refl eq_refl)
    as (_ & _ & _ & Hplayblast).
  split; [exact (f_equal outcome Hmedia)|exact (f_equal outcome Hplayblast)].
Defined.

(** X7 witness: the project path of the Windows core comes back with
    forward slashes. *)
Lemma single_paths_normalized_witness :
  outcome (get_project_path houdini_world) = Ok "C:/proj/alpha" ∧
  occurs backslash "C:/proj/alpha" = false.
Proof.
  split; [reflexivity|].
  apply (single_paths_normalized houdini_world "" "" None "C:/proj/alpha").
  left. reflexivity.
Defined.

(** ** The product browser *)

(** X8 -- what [request_products] returns.  With a core present and the
    [ProductBrowser] module importable, the function hands the dialog to
    the core's [parentWindow], runs it, and returns a list of the selected
    path alone, or the empty list when nothing (or an empty string) was
    selected: the list never holds more than one path and never an empty
    string. *)
Theorem request_products_selection (w : World)
    (selection : option string) :
  truthy (active_core w) = true →
  ProductBrowser w = Some selection →
  request_products w =
    {| outcome :=
         Ok match selection with
            | Some p => if truthy p then [p] else []
            | None => []
            end;
       world := w;
       trace :=
         [import_PrismInit; core_call Call.parentWindow;
          ProductBrowser_exec] |}
  ∧ ∀ paths, outcome (request_products w) = Ok paths →
      (List.length paths ≤ 1)%nat ∧ "" ∉ paths.
Proof.
  intros Htrue Hbrowser.
  assert (Hrun : request_products w =
    {| outcome :=
         Ok match selection with
            | Some p => if truthy p then [p] else []
            | None => []
            end;
       world := w;
       trace :=
         [import_PrismInit; core_call Call.parentWindow;
          ProductBrowser_exec] |}).
  { unfold request_products. rewrite with_core_run by done.
    run. rewrite Hbrowser.
    destruct (active_core w) as [|c]; [done|]. reflexivity. }
  split; [exact Hrun|].
  intros paths. rewrite Hrun. cbn [outcome]. intros [= <-].
  destruct selection as [[|ch p]|]; cbn; split;
    try lia; try apply not_elem_of_nil.
  by intros ?%list_elem_of_singleton.
Qed.

Lemma request_products_selection_witness :
  outcome (request_products
             (maya_world "/proj/alpha/scenes/shot01.ma"
                (Some "/proj/alpha/export/chair.abc")))
    = Ok ["/proj/alpha/export/chair.abc"].
Proof.
  destruct (request_products_selection
              (maya_world "/proj/alpha/scenes/shot01.ma"
                 (Some "/proj/alpha/export/chair.abc"))
              (Some "/proj/alpha/export/chair.abc") eq_refl eq_refl)
    as [Hrun _].
  exact (f_equal outcome Hrun).
Defined.

(** X9 -- a missing browser module is not wrapped.  With a core present
    but [ProductBrowser] not importable, [request_products] raises
    Python's [ModuleNotFoundError], not [OpenPrismAPIError], before anything
    is called on the core. *)
Theorem request_products_without_browser (w : World) :
  truthy (active_core w) = true →
  ProductBrowser w = None →
  request_products w =
    {| outcome := Raise (ModuleNotFoundError "ProductBrowser");
       world := w;
       trace := [import_PrismInit] |}.
Proof.
  intros Htrue Hbrowser. unfold request_products.
  rewrite with_core_run by done. run. by rewrite Hbrowser.
Qed.

Lemma request_products_without_browser_witness :
  request_products houdini_world =
    {| outcome := Raise (ModuleNotFoundError "ProductBrowser");
       world := houdini_world;
       trace := [import_PrismInit] |}.
Proof.
  apply (request_products_without_browser houdini_world); reflexivity.
Defined.

(** ** Product master versions *)

(** X10 -- [set_product_master_version] on an existing path with a core
    present: the core is resolved once and asked once, to make that very
    path the master version; the function returns normally. *)
Theorem product_master_version_delegates (w : World) (path : string) :
  os_path_exists w path = true →
  truthy (active_core w) = true →
  set_product_master_version path w =
    {| outcome := Ok tt;
       world := w;
       trace :=
         [import_PrismInit;
          core_call (Call.products_updateMasterVersion path)] |}.
Proof.
  intros Hexists Htrue. unfold set_product_master_version. run.
  rewrite Hexists. cbn [negb]. rewrite get_core_run. run.
  rewrite Htrue. cbn [negb].
  destruct (active_core w) as [|c]; [done|]. reflexivity.
Qed.

Lemma product_master_version_delegates_witness :
  set_product_master_version "C:\proj\alpha\export\chair.abc" houdini_world =
    {| outcome := Ok tt;
       world := houdini_world;
       trace :=
         [import_PrismInit;
          core_call
            (Call.products_updateMasterVersion
               "C:\proj\alpha\export\chair.abc")] |}.
Proof.
  apply (product_master_version_delegates houdini_world); reflexivity.
Defined.

(** ** Presence predicates and the scene provider *)


(** In the sample Houdini session only the Maya plugin is loaded. *)
Example plugins_of_houdini_world :
  outcome (is_prism houdini_world) = Ok true ∧
  outcome (is_maya_plugin houdini_world) = Ok true ∧
  outcome (is_houdini_plugin houdini_world) = Ok false.
Proof. repeat split. Qed.


(** A Houdini session with an untitled scene hides the scene Maya has. *)
Example houdini_hides_maya :
  outcome
    (get_curr_scene_file_path
       {| CORE := PyNone; PrismInit := None;
          maya_cmds := Some "/proj/alpha/scenes/shot01.ma"; hou := Some "";
          os_path_exists := λ _, false; ProductBrowser := None |}) = Ok "".
Proof. reflexivity. Qed.

(** ** What no function does *)

Section Preservation.
Context {A B : Type}.

Lemma preserves_ret (a : A) : preserves (mret a).
Proof. done. Qed.

Lemma preserves_raise (e : exn) : preserves (@raise A e).
Proof. done. Qed.

Lemma preserves_obj (r : pyref A) : preserves (obj r).
Proof. by destruct r. Qed.

Lemma preserves_call (c : Call.t) (a : A) : preserves (call c a).
Proof. done. Qed.

Lemma preserves_bind (m : M A) (f : A → M B) :
  preserves m → (∀ a, preserves (f a)) → preserves (m ≫= f).
Proof.
  intros Hm Hf w. unfold mbind, M_bind.
  destruct (outcome (m w)); cbn; [|apply Hm].
  rewrite Hf. apply Hm.
Qed.
End Preservation.

Lemma preserves_ask : preserves ask.
Proof. done. Qed.

Lemma preserves_emit (e : event) : preserves (emit e).
Proof. done. Qed.

Create HintDb preserves.

#[local] Hint Resolve preserves_ret preserves_raise preserves_obj
  preserves_call preserves_ask preserves_emit : preserves.

(** Walks through a function body: binds, branches, and the functions
    already known to preserve the world. *)
Ltac preserve :=
  cbv zeta;
  repeat first
    [ progress intros
    | solve [eauto with preserves]
    | apply preserves_bind
    | match goal with
      | |- preserves (if ?b then _ else _) => destruct b
      | |- preserves (match ?x with _ => _ end) => destruct x
      end ].

Lemma get_core_preserves : preserves get_core.
Proof. unfold get_core. preserve. Qed.

#[local] Hint Resolve get_core_preserves : preserves.

Lemma get_curr_scene_file_path_preserves : preserves get_curr_scene_file_path.
Proof. unfold get_curr_scene_file_path. preserve. Qed.

Lemma get_project_path_preserves : preserves get_project_path.
Proof. unfold get_project_path. preserve. Qed.

#[local] Hint Resolve get_curr_scene_file_path_preserves
  get_project_path_preserves : preserves.

Lemma is_scene_in_prism_preserves : preserves is_scene_in_prism.
Proof. unfold is_scene_in_prism. preserve. Qed.

Lemma get_scene_file_data_preserves scene_path :
  preserves (get_scene_file_data scene_path).
Proof. unfold get_scene_file_data. preserve. Qed.

#[local] Hint Resolve is_scene_in_prism_preserves
  get_scene_file_data_preserves : preserves.

Lemma get_product_export_data_preserves identifier extension start_frame
    end_frame comment location :
  preserves
    (get_product_export_data identifier extension start_frame end_frame
       comment location).
Proof. unfold get_product_export_data. preserve. Qed.

Lemma get_media_product_data_preserves identifier extension comment location :
  preserves (get_media_product_data identifier extension comment location).
Proof. unfold get_media_product_data. preserve. Qed.

Lemma get_playblast_product_data_preserves identifier extension comment
    location :
  preserves (get_playblast_product_data identifier extension comment location).
Proof. unfold get_playblast_product_data. preserve. Qed.

Lemma set_media_master_version_preserves path is_playblast is_2d_render :
  preserves (set_media_master_version path is_playblast is_2d_render).
Proof. unfold set_media_master_version. preserve. Qed.

Lemma get_maya_plugin_preserves : preserves get_maya_plugin.
Proof. unfold get_maya_plugin. preserve. Qed.

Lemma get_houdini_plugin_preserves : preserves get_houdini_plugin.
Proof. unfold get_houdini_plugin. preserve. Qed.

#[local] Hint Resolve get_product_export_data_preserves
  get_media_product_data_preserves get_playblast_product_data_preserves
  set_media_master_version_preserves get_maya_plugin_preserves
  get_houdini_plugin_preserves : preserves.


Section SafeDereference.
Context {A B : Type}.

Lemma safely_ret (a : A) : dereferences_safely (mret a).
Proof. done. Qed.

Lemma safely_raise_OpenPrismAPIError (msg : string) :
  dereferences_safely (@raise A (OpenPrismAPIError msg)).
Proof. done. Qed.

Lemma safely_raise_ModuleNotFoundError (name : string) :
  dereferences_safely (@raise A (ModuleNotFoundError name)).
Proof. done. Qed.

(** Dereferencing is safe on a reference known to be an object. *)
Lemma safely_obj (a : A) : dereferences_safely (obj (PyObj a)).
Proof. done. Qed.

Lemma safely_call (c : Call.t) (a : A) : dereferences_safely (call c a).
Proof. done. Qed.

Lemma safely_bind (m : M A) (f : A → M B) :
  dereferences_safely m →
  (∀ a, dereferences_safely (f a)) →
  dereferences_safely (m ≫= f).
Proof.
  intros Hm Hf w. unfold mbind, M_bind.
  destruct (outcome (m w)) as [a|e] eqn:Hout; cbn.
  - apply Hf.
  - intros [= ->]. by apply (Hm w).
Qed.

(** The check [if not core: raise ...] makes what follows safe: past it,
    the reference is an object. *)
Lemma safely_guarded (msg : string) (rest : pyref Core → M A) :
  (∀ c, dereferences_safely (rest (PyObj c))) →
  dereferences_safely
    (core ← get_core;
     if negb (truthy core) then raise (OpenPrismAPIError msg) else rest core).
Proof.
  intros Hrest w.
  rewrite (bind_ok _ _ _ _ _ _ (get_core_run w)).
  destruct (active_core w) as [|c]; [done|].
  destruct (truthy (PyObj c)); cbn [negb outcome]; [apply Hrest|done].
Qed.
End SafeDereference.

Lemma safely_ask : dereferences_safely ask.
Proof. done. Qed.

Lemma safely_emit (e : event) : dereferences_safely (emit e).
Proof. done. Qed.

Create HintDb safely.

#[local] Hint Resolve safely_ret safely_raise_OpenPrismAPIError
  safely_raise_ModuleNotFoundError safely_obj safely_call safely_ask
  safely_emit : safely.

(** Walks through a function body; a core check is handled as a whole,
    so that [obj] is only ever met on an object. *)
Ltac safely :=
  cbv zeta;
  repeat first
    [ progress intros
    | solve [eauto with safely]
    | apply safely_guarded
    | apply safely_bind
    | match goal with
      | |- dereferences_safely (if ?b then _ else _) => destruct b
      | |- dereferences_safely (match ?x with _ => _ end) => destruct x
      end ].

Lemma get_core_safely : dereferences_safely get_core.
Proof. unfold get_core. safely. Qed.

#[local] Hint Resolve get_core_safely : safely.

Lemma get_curr_scene_file_path_safely :
  dereferences_safely get_curr_scene_file_path.
Proof. unfold get_curr_scene_file_path. safely. Qed.

Lemma get_project_path_safely : dereferences_safely get_project_path.
Proof. unfold get_project_path. safely. Qed.

#[local] Hint Resolve get_curr_scene_file_path_safely
  get_project_path_safely : safely.

Lemma is_scene_in_prism_safely : dereferences_safely is_scene_in_prism.
Proof. unfold is_scene_in_prism. safely. Qed.

Lemma get_scene_file_data_safely scene_path :
  dereferences_safely (get_scene_file_data scene_path).
Proof. unfold get_scene_file_data. safely. Qed.

#[local] Hint Resolve is_scene_in_prism_safely get_scene_file_data_safely
  : safely.

Lemma get_product_export_data_safely identifier extension start_frame
    end_frame comment location :
  dereferences_safely
    (get_product_export_data identifier extension start_frame end_frame
       comment location).
Proof. unfold get_product_export_data. safely. Qed.

Lemma get_media_product_data_safely identifier extension comment location :
  dereferences_safely
    (get_media_product_data identifier extension comment location).
Proof. unfold get_media_product_data. safely. Qed.

Lemma get_playblast_product_data_safely identifier extension comment
    location :
  dereferences_safely
    (get_playblast_product_data identifier extension comment location).
Proof. unfold get_playblast_product_data. safely. Qed.

Lemma set_media_master_version_safely path is_playblast is_2d_render :
  dereferences_safely
    (set_media_master_version path is_playblast is_2d_render).
Proof. unfold set_media_master_version. safely. Qed.

Lemma get_maya_plugin_safely : dereferences_safely get_maya_plugin.
Proof. unfold get_maya_plugin. safely. Qed.

Lemma get_houdini_plugin_safely : dereferences_safely get_houdini_plugin.
Proof. unfold get_houdini_plugin. safely. Qed.

#[local] Hint Resolve get_product_export_data_safely
  get_media_product_data_safely get_playblast_product_data_safely
  set_media_master_version_safely get_maya_plugin_safely
  get_houdini_plugin_safely : safely.

(** X14 -- [None] is never dereferenced.  In every world and for every
    argument, no function of the module ends in the [AttributeError] of an
    attribute looked up on a [None] core: each use of the core comes after
    an [is None] test or an [if not core] check that raised instead. *)
Theorem none_is_never_dereferenced :
  dereferences_safely get_core ∧
  (∀ new_core, dereferences_safely (set_core new_core)) ∧
  dereferences_safely is_prism ∧
  dereferences_safely get_maya_plugin ∧
  dereferences_safely is_maya_plugin ∧
  dereferences_safely get_houdini_plugin ∧
  dereferences_safely is_houdini_plugin ∧
  dereferences_safely get_project_name ∧
  dereferences_safely get_project_path ∧
  dereferences_safely get_prism_folder ∧
  dereferences_safely get_curr_scene_file_path ∧
  dereferences_safely is_scene_in_prism ∧
  (∀ scene_path, dereferences_safely (get_scene_file_data scene_path)) ∧
  (∀ scene_path, dereferences_safely (get_task scene_path)) ∧
  (∀ scene_path, dereferences_safely (get_department scene_path)) ∧
  (∀ identifier extension start_frame end_frame comment location,
     dereferences_safely
       (get_product_export_data identifier extension start_frame end_frame
          comment location)) ∧
  (∀ identifier extension location,
     dereferences_safely
       (get_product_export_file_path identifier extension location)) ∧
  (∀ path, dereferences_safely (set_product_master_version path)) ∧
  (∀ identifier extension comment location,
     dereferences_safely
       (get_media_product_data identifier extension comment location)) ∧
  (∀ identifier extension location,
     dereferences_safely
       (get_media_export_file_path identifier extension location)) ∧
  (∀ identifier extension comment location,
     dereferences_safely
       (get_playblast_product_data identifier extension comment location)) ∧
  (∀ identifier extension location,
     dereferences_safely
       (get_playblast_export_file_path identifier extension location)) ∧
  (∀ path is_playblast is_2d_render,
     dereferences_safely
       (set_media_master_version path is_playblast is_2d_render)) ∧
  (∀ path, dereferences_safely (set_render_master_version path)) ∧
  (∀ path, dereferences_safely (set_playblast_master_version path)) ∧
  (∀ path, dereferences_safely (set_2d_render_master_version path)) ∧
  dereferences_safely get_export_locations ∧
  dereferences_safely get_render_locations ∧
  dereferences_safely request_products ∧
  (∀ scene_path, dereferences_safely (get_shot_range scene_path)).
Proof.
  repeat split; try done;
    unfold is_prism, is_maya_plugin, is_houdini_plugin, get_project_name,
      get_prism_folder, get_task, get_department,
      get_product_export_file_path, set_product_master_version,
      get_media_export_file_path, get_playblast_export_file_path,
      set_render_master_version, set_playblast_master_version,
      set_2d_render_master_version, get_export_locations,
      get_render_locations, request_products, get_shot_range;
    safely.
Qed.

(** ** Locations *)

(** X15 -- export and render locations are passed through.  With a core
    present, [get_export_locations] and [get_render_locations] ask the core
    once and return its mapping of location names to paths as it is: unlike
    the functions that return one path, they replace no separator. *)
Theorem locations_pass_through (w : World) (c : Core) :
  active_core w = PyObj c →
  truthy c = true →
  get_export_locations w =
    {| outcome := Ok (paths_getExportProductBasePaths c);
       world := w;
       trace := [import_PrismInit; core_call Call.getExportProductBasePaths] |}
  ∧ get_render_locations w =
    {| outcome := Ok (paths_getRenderProductBasePaths c);
       world := w;
       trace := [import_PrismInit; core_call Call.getRenderProductBasePaths] |}.
Proof.
  intros Hcore Htrue.
  assert (Htruthy : truthy (active_core w) = true) by by rewrite Hcore.
  unfold get_export_locations, get_render_locations.
  rewrite !with_core_run by done. by rewrite Hcore.
Qed.

Lemma locations_pass_through_witness :
  outcome (get_export_locations houdini_world)
    = Ok {[ "global" := "C:\proj\alpha" ]}.
Proof.
  destruct (locations_pass_through houdini_world windows_core eq_refl eq_refl)
    as [Hexport _].
  exact (f_equal outcome Hexport).
Defined.

(** ** Membership is a test on characters *)

Lemma replace_app old new (s t : string) :
  replace old new (s +:+ t) = replace old new s +:+ replace old new t.
Proof.
  induction s as [|ch s IH]; [done|].
  change (String ch s +:+ t) with (String ch (s +:+ t)).
  cbn [replace]. rewrite IH. reflexivity.
Qed.

(** X16 -- membership is a prefix test on characters.  Whenever the host's
    scene path is the core's non-empty project path followed by any string
    at all, [is_scene_in_prism] returns [True]: the remainder need not
    start at a separator, so a scene in a sibling folder whose name extends
    the project's name counts as inside the project. *)
Theorem scene_under_project_prefix (w : World) (c : Core) (rest : string) :
  active_core w = PyObj c →
  projectPath c ≠ "" →
  host_scene w = projectPath c +:+ rest →
  outcome (is_scene_in_prism w) = Ok true.
Proof.
  intros Hcore Hproject Hscene.
  rewrite (is_scene_in_prism_run w _ _
    (f_equal outcome (get_curr_scene_file_path_run w))
    (f_equal outcome (get_project_path_run w))).
  rewrite Hcore, Hscene, replace_app. cbn [outcome]. f_equal.
  rewrite (truthy_replace _ _ (projectPath c)).
  apply truthy_str_true in Hproject. rewrite Hproject.
  assert (Hfull : truthy (replace backslash slash (projectPath c) +:+
                            replace backslash slash rest) = true).
  { by destruct (projectPath c). }
  rewrite Hfull. cbn [negb orb].
  apply startswith_spec. eauto.
Qed.

Lemma scene_under_project_prefix_witness :
  outcome
    (is_scene_in_prism
       {| CORE := PyObj windows_core; PrismInit := None;
          maya_cmds := Some "C:\proj\alphabet\shot01.ma"; hou := None;
          os_path_exists := λ _, true; ProductBrowser := None |}) = Ok true.
Proof.
  apply (scene_under_project_prefix _ windows_core "bet\shot01.ma");
    [reflexivity|discriminate|reflexivity].
Defined.
